(** * launchbar-node: the automation facade of [src/index.js]

    A shallow embedding of the module: JavaScript values and strings, the
    commands the facade hands to [/usr/bin/osascript], the environment
    snapshot taken at load time and the two store handles. *)

From Stdlib Require Import ZArith Ascii String DecimalString.
From stdpp Require Import base option list strings gmap.

Local Open Scope string_scope.
Set Warnings "-register-all".
#[local] Arguments String.append : simpl nomatch.

(** ** Characters and strings

    A JavaScript string is modelled by the byte string of its UTF-8 text.
    Every character the module inspects (double quote, backslash, newline) is
    ASCII, so it is one byte here and one code unit there. *)

Definition dquote : ascii := "034"%char.
Definition backslash : ascii := "092"%char.
Definition newline : ascii := "010"%char.
Definition tab : ascii := "009"%char.

Definition str1 (c : ascii) : string := String c EmptyString.

(** The line continuation sign of the notification script, U+00AC, as UTF-8. *)
Definition not_sign : string := String "194"%char (String "172"%char EmptyString).

(** ** JavaScript values *)

Inductive value : Type :=
| VUndefined
| VNull
| VBool (b : bool)
| VNum (n : Z)
| VStr (s : string).

(** ToBoolean. *)
Definition truthy (v : value) : bool :=
  match v with
  | VUndefined | VNull => false
  | VBool b => b
  | VNum n => negb (n =? 0)%Z
  | VStr s => negb (String.eqb s "")
  end.

(** [a || b]. *)
Definition js_or (a b : value) : value := if truthy a then a else b.

(** ToString, as a template literal applies it to [${v}].  A number is
    modelled by an integer; the decimal printing below is JavaScript's on the
    safe integers, those up to [2^53 - 1] in absolute value.  Larger numbers
    (printed with rounded digits, or with an exponent from [10^21] on) and
    fractions are outside the model. *)
Definition to_string (v : value) : string :=
  match v with
  | VUndefined => "undefined"
  | VNull => "null"
  | VBool true => "true"
  | VBool false => "false"
  | VNum n => NilZero.string_of_int (Z.to_int n)
  | VStr s => s
  end.

(** [v === lit] for a string literal [lit]. *)
Definition strict_eq_str (v : value) (lit : string) : bool :=
  match v with
  | VStr s => String.eqb s lit
  | _ => false
  end.

(** ** String operations of the runtime *)

Definition quoted (s : string) : string := str1 dquote +:+ s +:+ str1 dquote.

(** [s.split("\n")]. *)
Fixpoint split_newline (s : string) : list string :=
  match s with
  | EmptyString => [EmptyString]
  | String c r =>
      if Ascii.eqb c newline then EmptyString :: split_newline r
      else match split_newline r with
           | h :: t => String c h :: t
           | [] => [str1 c]
           end
  end.

(** [l.join(sep)] on an array of strings. *)
Fixpoint join (sep : string) (l : list string) : string :=
  match l with
  | [] => EmptyString
  | x :: r =>
      match r with
      | [] => x
      | _ :: _ => x +:+ sep +:+ join sep r
      end
  end.

(** ** JSON.stringify on the data the module prints *)

Inductive json : Type :=
| JStr (s : string)
| JArr (items : list json)
| JObj (fields : list (string * json)).

Definition hex_digit (n : nat) : ascii :=
  if (n <? 10)%nat then ascii_of_nat (48 + n) else ascii_of_nat (87 + n).

(** QuoteJSONString on one character: the two-character escapes, [\u00XX] for
    the other control characters, the character itself otherwise. *)
Definition json_escape_char (c : ascii) : string :=
  let n := nat_of_ascii c in
  if Ascii.eqb c dquote then String backslash (str1 dquote)
  else if Ascii.eqb c backslash then String backslash (str1 backslash)
  else if (n =? 8)%nat then String backslash "b"
  else if (n =? 9)%nat then String backslash "t"
  else if (n =? 10)%nat then String backslash "n"
  else if (n =? 12)%nat then String backslash "f"
  else if (n =? 13)%nat then String backslash "r"
  else if (n <? 32)%nat then
    String backslash ("u00" +:+ String (hex_digit (n / 16)) (str1 (hex_digit (n mod 16))))
  else str1 c.

Fixpoint json_escape (s : string) : string :=
  match s with
  | EmptyString => EmptyString
  | String c r => json_escape_char c +:+ json_escape r
  end.

Definition json_quote (s : string) : string := quoted (json_escape s).

Fixpoint stringify (j : json) : string :=
  match j with
  | JStr s => json_quote s
  | JArr items =>
      "[" +:+ join "," ((fix each (l : list json) : list string :=
                           match l with
                           | [] => []
                           | x :: r => stringify x :: each r
                           end) items) +:+ "]"
  | JObj fields =>
      "{" +:+ join "," ((fix each (l : list (string * json)) : list string :=
                           match l with
                           | [] => []
                           | (k, x) :: r => (json_quote k +:+ ":" +:+ stringify x) :: each r
                           end) fields) +:+ "}"
  end.

(** ** Effects

    A call of the facade leaves a trace of what it did to the outside world
    and either resolves with a value or rejects. *)

Inductive event : Type :=
| Spawn (file : string) (args : list string)
| ConsoleLog (text : string).

Definition is_spawn (e : event) : bool :=
  match e with
  | Spawn _ _ => true
  | ConsoleLog _ => false
  end.

Inductive error : Type :=
| TypeError
| ProcessError.

Inductive outcome (A : Type) : Type :=
| Resolved (a : A)
| Rejected (e : error).
Arguments Resolved {A} a.
Arguments Rejected {A} e.

Definition action (A : Type) : Type := (outcome A * list event)%type.

Definition settle {A : Type} (o : outcome A) : action A := (o, []).

#[global] Instance action_ret : MRet action := fun A a => (Resolved a, []).

#[global] Instance action_bind : MBind action := fun A B k m =>
  match m with
  | (Resolved a, t) => let '(r, t') := k a in (r, (t ++ t')%list)
  | (Rejected e, t) => (Rejected e, t)
  end.

(** [console.log(text)]. *)
Definition console_log (text : string) : action unit :=
  (Resolved tt, [ConsoleLog text]).

(** ** The external collaborators *)

(** Modelled from the spec: package [escape-string-applescript] is a
    dependency outside [src/]; the escaping transform neutralises quotes and
    backslashes, here by a backslash in front of each. *)
Fixpoint escape_chars (s : string) : string :=
  match s with
  | EmptyString => EmptyString
  | String c r =>
      if Ascii.eqb c dquote || Ascii.eqb c backslash
      then String backslash (String c (escape_chars r))
      else String c (escape_chars r)
  end.

Definition is_space (c : ascii) : bool :=
  let n := nat_of_ascii c in
  ((n =? 32)%nat || ((9 <=? n)%nat && (n <=? 13)%nat)).

Fixpoint trim_start (s : string) : string :=
  match s with
  | EmptyString => EmptyString
  | String c r => if is_space c then trim_start r else s
  end.

Fixpoint trim_end (s : string) : string :=
  match s with
  | EmptyString => EmptyString
  | String c r =>
      let r' := trim_end r in
      if is_space c && String.eqb r' EmptyString then EmptyString else String c r'
  end.

(** Whitespace is the ASCII set: space, tab, line feed, vertical tab, form
    feed, carriage return. *)
Definition trim (s : string) : string := trim_end (trim_start s).

Fixpoint all_space (s : string) : bool :=
  match s with
  | EmptyString => true
  | String c r => is_space c && all_space r
  end.

Fixpoint last_char (s : string) : option ascii :=
  match s with
  | EmptyString => None
  | String c r =>
      match r with
      | EmptyString => Some c
      | String _ _ => last_char r
      end
  end.

Definition osascript : string := "/usr/bin/osascript".

Record notification_options : Type := {
  text : value;
  title : value;
  subtitle : value;
  callbackUrl : value;
  afterDelay : value
}.

Inductive text_arguments : Type :=
| TStr (s : string)
| TArr (l : list string).

(** The environment snapshot. *)
Record Env : Type := {
  actionPath : value;
  cachePath : value;
  supportPath : value;
  isDebugLogEnabled : bool;
  applicationPath : value;
  scriptType : value;
  commandKey : bool;
  alternateKey : bool;
  shiftKey : bool;
  controlKey : bool;
  spaceKey : bool;
  actionRunsInBackground : bool;
  isLiveFeedbackEnabled : bool
}.

(** [process.env.name]. *)
Definition env_var (penv : gmap string string) (name : string) : value :=
  match penv !! name with
  | Some s => VStr s
  | None => VUndefined
  end.

Definition snapshot (penv : gmap string string) : Env := {|
  actionPath := env_var penv "LB_ACTION_PATH";
  cachePath := env_var penv "LB_CACHE_PATH";
  supportPath := env_var penv "LB_SUPPORT_PATH";
  isDebugLogEnabled := strict_eq_str (env_var penv "LB_DEBUG_LOG_ENABLED") "1";
  applicationPath := env_var penv "LB_LAUNCHBAR_PATH";
  scriptType := env_var penv "LB_SCRIPT_TYPE";
  commandKey := strict_eq_str (env_var penv "LB_OPTION_COMMAND_KEY") "1";
  alternateKey := strict_eq_str (env_var penv "LB_OPTION_ALTERNATE_KEY") "1";
  shiftKey := strict_eq_str (env_var penv "LB_OPTION_SHIFT_KEY") "1";
  controlKey := strict_eq_str (env_var penv "LB_OPTION_CONTROL_KEY") "1";
  spaceKey := strict_eq_str (env_var penv "LB_OPTION_SPACE_KEY") "1";
  actionRunsInBackground := strict_eq_str (env_var penv "LB_OPTION_RUN_IN_BACKGROUND") "1";
  isLiveFeedbackEnabled := strict_eq_str (env_var penv "LB_OPTION_LIVE_FEEDBACK") "1"
|}.

(** The store handles: [new Conf(options)] and [new CacheConf(options)] are
    kept as the constructor applied to the options it was given. *)
Record store_options : Type := {
  configName : value;
  cwd : value
}.

Inductive store : Type :=
| Conf (options : store_options)
| CacheConf (options : store_options).

(** The module object once [index.js] has been loaded. *)
Record LaunchBar : Type := {
  env : Env;
  config : store;
  cache : store
}.

Definition load (penv : gmap string string) : LaunchBar :=
  let e := snapshot penv in
  {| env := e;
     config := Conf {| configName := VUndefined; cwd := supportPath e |};
     cache := CacheConf {| configName := VStr "cache"; cwd := cachePath e |} |}.

(** ** The facade *)

Section Facade.

(** What [escapeString] does with an argument that is not a string is the
    package's business: it may hand the value back or throw. *)
Variable escapeNonString : value -> outcome value.

(** The outside world: the standard output of a process that ran to a zero
    exit status, [None] when it could not be spawned or failed. *)
Variable runProcess : string -> list string -> option string.

Definition escapeString (v : value) : outcome value :=
  match v with
  | VStr s => Resolved (VStr (escape_chars s))
  | _ => escapeNonString v
  end.

(** Modelled from the spec: [task.execFile] of package [@roeybiran/task] is
    outside [src/]; it spawns one process, rejects when the process fails
    and resolves with its standard output, trimmed. *)
Definition execFile (file : string) (args : list string) : action string :=
  match runProcess file args with
  | Some out => (Resolved (trim out), [Spawn file args])
  | None => (Rejected ProcessError, [Spawn file args])
  end.

Definition output (data : json) : action unit :=
  console_log (stringify data).

Definition hide : action unit :=
  _ ← execFile osascript ["-e"; "tell application " +:+ quoted "LaunchBar" +:+ " to hide"];
  mret tt.

Definition remainActive : action unit :=
  _ ← execFile osascript
        ["-e"; "tell application " +:+ quoted "LaunchBar" +:+ " to remain active"];
  mret tt.

Definition hasKeyboardFocus_script : string :=
  "tell application " +:+ quoted "LaunchBar" +:+ " to return has keyboard focus".

Definition hasKeyboardFocus : action bool :=
  result ← execFile osascript ["-e"; hasKeyboardFocus_script];
  mret (String.eqb result "true").

Definition setClipboardString_script (escaped : value) : string :=
  "tell application " +:+ quoted "LaunchBar" +:+ " to set the clipboard to "
    +:+ quoted (to_string escaped).

Definition setClipboardString (text : value) : action unit :=
  escaped ← settle (escapeString text);
  _ ← execFile osascript ["-e"; setClipboardString_script escaped];
  mret tt.

Definition clearClipboard : action unit :=
  _ ← execFile osascript ["-e"; "set the clipboard to " +:+ quoted ""];
  mret tt.

Definition paste_script (escaped : value) : string :=
  "tell application " +:+ quoted "LaunchBar" +:+ " to paste in frontmost application "
    +:+ quoted (to_string escaped).

Definition paste (text : value) : action unit :=
  escaped ← settle (escapeString text);
  _ ← execFile osascript ["-e"; paste_script escaped];
  mret tt.

Definition performService_script (service escaped : value) : string :=
  "tell application " +:+ quoted "LaunchBar" +:+ " to perform service "
    +:+ quoted (to_string service) +:+ " with string " +:+ quoted (to_string escaped).

Definition performService (service argv : value) : action unit :=
  escaped ← settle (escapeString argv);
  _ ← execFile osascript ["-e"; performService_script service escaped];
  mret tt.

(** The end of a script line: a space, the continuation sign, a line feed
    and the two tabs that indent the next line. *)
Definition continued : string :=
  " " +:+ not_sign +:+ String newline (String tab (str1 tab)).

Definition displayNotification_script
    (text title subtitle callbackUrl afterDelay : value) : string :=
  "tell application " +:+ quoted "LaunchBar" +:+ " to display in notification center "
    +:+ quoted (to_string text) +:+ continued
    +:+ "with title " +:+ quoted (to_string title) +:+ continued
    +:+ "subtitle " +:+ quoted (to_string subtitle) +:+ continued
    +:+ "callback URL " +:+ quoted (to_string callbackUrl) +:+ continued
    +:+ "after delay " +:+ quoted (to_string afterDelay).

Definition displayNotification (options : option notification_options) : action unit :=
  '(text, title, subtitle, callbackUrl, afterDelay) ←
    match options with
    | None => mret (VStr "", VStr "LaunchBar", VStr "", VStr "", VNum 0)
    | Some o =>
        t ← settle (escapeString o.(title));
        x ← settle (escapeString o.(text));
        s ← settle (escapeString o.(subtitle));
        mret (js_or x (VStr ""), js_or t (VStr "LaunchBar"), js_or s (VStr ""),
              js_or o.(callbackUrl) (VStr ""), js_or o.(afterDelay) (VNum 0))
    end;
  _ ← execFile osascript
        ["-e"; displayNotification_script text title subtitle callbackUrl afterDelay];
  mret tt.

(** [typeof inputText === "string"] wraps a single string in an array. *)
Definition inputText (textArguments : text_arguments) : list string :=
  match textArguments with
  | TStr s => [s]
  | TArr l => l
  end.

Definition allLines (textArguments : text_arguments)
    (textProcessingFunction : string -> string) : list string :=
  concat (map (fun textArgumnet =>
                 map (fun line => textProcessingFunction line)
                     (split_newline textArgumnet))
              (inputText textArguments)).

Definition default_joiner (joiner : option string) : string :=
  match joiner with
  | Some j => j
  | None => str1 newline
  end.

Definition textAction (lb : LaunchBar) (textArguments : text_arguments)
    (textProcessingFunction : string -> string) (joiner : option string) : action unit :=
  let lines := allLines textArguments textProcessingFunction in
  if lb.(env).(commandKey)
  then console_log (stringify (JArr (map (fun x => JObj [("title", JStr x)]) lines)))
  else paste (VStr (join (default_joiner joiner) lines)).

End Facade.

(** ** The interpreter's quoting rules

    Modelled from the spec: the scripting interpreter is outside the
    repository.  A script is read as code interleaved with string literals; a
    literal runs from a double quote to the next double quote that no
    backslash neutralises, and inside it a backslash neutralises the double
    quote or backslash that follows.  A script whose last literal is never
    closed, or with a backslash in front of another character, is not read. *)

Inductive segment : Type :=
| Code (s : string)
| Lit (s : string).

Inductive lex_mode : Type :=
| InCode
| InLit
| InEscape.

Fixpoint lex (m : lex_mode) (cur : string) (s : string) : option (list segment) :=
  match s with
  | EmptyString =>
      match m with
      | InCode => Some [Code cur]
      | InLit | InEscape => None
      end
  | String c r =>
      match m with
      | InCode =>
          if Ascii.eqb c dquote then cons (Code cur) <$> lex InLit EmptyString r
          else lex InCode (cur +:+ str1 c) r
      | InLit =>
          if Ascii.eqb c dquote then cons (Lit cur) <$> lex InCode EmptyString r
          else if Ascii.eqb c backslash then lex InEscape cur r
          else lex InLit (cur +:+ str1 c) r
      | InEscape =>
          if Ascii.eqb c dquote || Ascii.eqb c backslash
          then lex InLit (cur +:+ str1 c) r
          else None
      end
  end.

Definition read_script (script : string) : option (list segment) :=
  lex InCode EmptyString script.

(** The contents of the string literals of a script, in order. *)
Definition literals (segments : list segment) : list string :=
  omap (fun g => match g with Lit s => Some s | Code _ => None end) segments.

(** ** A sample processing function: ASCII upper-casing *)

Definition upper_char (c : ascii) : ascii :=
  let n := nat_of_ascii c in
  if ((97 <=? n)%nat && (n <=? 122)%nat) then ascii_of_nat (n - 32) else c.

Fixpoint upper (s : string) : string :=
  match s with
  | EmptyString => EmptyString
  | String c r => String (upper_char c) (upper r)
  end.

Definition has_char (c : ascii) (s : string) : bool :=
  existsb (Ascii.eqb c) (list_ascii_of_string s).

(** ** Shapes of traces and texts *)

(** A trace of at most one event, the spawn of the interpreter on one
    [-e] script. *)
Definition one_osascript_at_most (trace : list event) : bool :=
  match trace with
  | [] => true
  | [Spawn file [flag; _]] =>
      String.eqb file "/usr/bin/osascript" && String.eqb flag "-e"
  | _ => false
  end.

(** The trace of a call is of that shape, and a call that resolved did
    spawn. *)
Definition well_traced {A : Type} (a : action A) : bool :=
  one_osascript_at_most (snd a)
  && match fst a with
     | Resolved _ => (length (snd a) =? 1)%nat
     | Rejected _ => true
     end.

(** A text with neither a double quote nor a backslash in it. *)
Fixpoint plain (s : string) : bool :=
  match s with
  | EmptyString => true
  | String c r => negb (Ascii.eqb c dquote) && negb (Ascii.eqb c backslash) && plain r
  end.

(** A text whose bytes are all [0x20] or above: no line feed, carriage
    return, tab or other character below the space.  The delete character
    [0x7F] and the bytes of non-ASCII characters pass. *)
Fixpoint from_space_up (s : string) : bool :=
  match s with
  | EmptyString => true
  | String c r => (32 <=? nat_of_ascii c)%nat && from_space_up r
  end.

Definition carriage_return : ascii := "013"%char.

(** [Number.isSafeInteger(n)]. *)
Definition safe_integer (n : Z) : bool := (Z.abs n <=? 9007199254740991)%Z.

Fixpoint count_newlines (s : string) : nat :=
  match s with
  | EmptyString => 0
  | String c r => (if Ascii.eqb c newline then 1 else 0) + count_newlines r
  end.

(** The variables [index.js] reads from [process.env]. *)
Definition snapshot_variables : list string :=
  ["LB_ACTION_PATH"; "LB_CACHE_PATH"; "LB_SUPPORT_PATH"; "LB_DEBUG_LOG_ENABLED";
   "LB_LAUNCHBAR_PATH"; "LB_SCRIPT_TYPE"; "LB_OPTION_COMMAND_KEY";
   "LB_OPTION_ALTERNATE_KEY"; "LB_OPTION_SHIFT_KEY"; "LB_OPTION_CONTROL_KEY";
   "LB_OPTION_SPACE_KEY"; "LB_OPTION_RUN_IN_BACKGROUND"; "LB_OPTION_LIVE_FEEDBACK"].

(** The text [embedded] between the quotes of a script is read as one
    literal holding [content], whatever follows the closing quote. *)
Definition reads_as (embedded content : string) : Prop :=
  forall rest : string,
    lex InLit EmptyString (embedded +:+ String dquote rest)
    = cons (Lit content) <$> lex InCode EmptyString rest.

(** * Properties *)

(** ** Strings *)

Lemma append_nil_r (s : string) : s +:+ EmptyString = s.
Proof. induction s as [|c s IH]; simpl; [reflexivity | now rewrite IH]. Qed.

Lemma append_assoc (a b c : string) : (a +:+ b) +:+ c = a +:+ (b +:+ c).
Proof. induction a as [|x a IH]; simpl; [reflexivity | now rewrite IH]. Qed.

Lemma append_snoc (cur : string) (c : ascii) (s : string) :
  (cur +:+ str1 c) +:+ s = cur +:+ String c s.
Proof. now rewrite append_assoc. Qed.

(** ** Reading an escaped text back *)

(** Inside a literal, the escaped form of [s] reads as [s] itself, whatever
    follows it. *)
Lemma lex_escape_chars (s cur rest : string) :
  lex InLit cur (escape_chars s +:+ rest) = lex InLit (cur +:+ s) rest.
Proof.
  revert cur; induction s as [|c s IH]; intros cur; simpl.
  - now rewrite append_nil_r.
  - destruct (Ascii.eqb c dquote) eqn:Hq; simpl.
    + rewrite Hq; simpl. rewrite IH. now rewrite append_snoc.
    + destruct (Ascii.eqb c backslash) eqn:Hb; simpl.
      * rewrite Hq, Hb; simpl. rewrite IH. now rewrite append_snoc.
      * rewrite Hq, Hb. rewrite IH. now rewrite append_snoc.
Qed.

(** A literal holding the escaped form of [s] closes on its own closing quote. *)
Lemma lex_quoted_escaped (s rest : string) :
  lex InLit EmptyString (escape_chars s +:+ String dquote rest)
  = cons (Lit s) <$> lex InCode EmptyString rest.
Proof. rewrite lex_escape_chars. reflexivity. Qed.

Ltac read_template :=
  cbv [read_script setClipboardString_script paste_script performService_script
       displayNotification_script continued not_sign quoted str1 to_string];
  simpl;
  repeat (rewrite ?append_assoc; simpl; rewrite lex_quoted_escaped; simpl);
  try reflexivity.

Lemma read_setClipboardString_script (s : string) :
  read_script (setClipboardString_script (VStr (escape_chars s)))
  = Some [Code "tell application "; Lit "LaunchBar";
          Code " to set the clipboard to "; Lit s; Code ""].
Proof. read_template. Qed.

Lemma read_paste_script (s : string) :
  read_script (paste_script (VStr (escape_chars s)))
  = Some [Code "tell application "; Lit "LaunchBar";
          Code " to paste in frontmost application "; Lit s; Code ""].
Proof. read_template. Qed.

(** ** Commands that embed caller text *)

Ltac run_action :=
  cbv [setClipboardString paste performService displayNotification hasKeyboardFocus
       settle escapeString execFile mbind action_bind mret action_ret];
  simpl.

(** C2. For every string [s], so for every one with quotes or backslashes in
    it, [setClipboardString(s)] and [paste(s)] hand the interpreter one
    command in which [s] stands escaped between the quotes of the template,
    and that command reads as the template's own code and literals, the last
    literal holding exactly [s]: the script is well formed whatever [s] is. *)
Theorem clipboard_and_paste_escape_their_text
    (escapeNonString : value -> outcome value)
    (runProcess : string -> list string -> option string) (s : string) :
  let clip := "tell application " +:+ quoted "LaunchBar"
                +:+ " to set the clipboard to " +:+ quoted (escape_chars s) in
  let pst := "tell application " +:+ quoted "LaunchBar"
               +:+ " to paste in frontmost application " +:+ quoted (escape_chars s) in
  snd (setClipboardString escapeNonString runProcess (VStr s))
    = [Spawn "/usr/bin/osascript" ["-e"; clip]]
  /\ read_script clip
     = Some [Code "tell application "; Lit "LaunchBar";
             Code " to set the clipboard to "; Lit s; Code ""]
  /\ snd (paste escapeNonString runProcess (VStr s))
     = [Spawn "/usr/bin/osascript" ["-e"; pst]]
  /\ read_script pst
     = Some [Code "tell application "; Lit "LaunchBar";
             Code " to paste in frontmost application "; Lit s; Code ""].
Proof.
  intros clip pst. repeat split.
  - run_action. now destruct (runProcess _ _).
  - apply read_setClipboardString_script.
  - run_action. now destruct (runProcess _ _).
  - apply read_paste_script.
Qed.

(** C1. [performService] interpolates [service] as it is, next to an escaped
    [argv]: for the service name [x" & y & "] the first literal closes after
    [x] and the rest of the name is read as code. *)
Theorem performService_embeds_service_unescaped
    (escapeNonString : value -> outcome value)
    (runProcess : string -> list string -> option string) :
  let service := "x" +:+ quoted " & y & " in
  let script := "tell application " +:+ quoted "LaunchBar" +:+ " to perform service "
                  +:+ quoted service +:+ " with string " +:+ quoted "z" in
  snd (performService escapeNonString runProcess (VStr service) (VStr "z"))
    = [Spawn "/usr/bin/osascript" ["-e"; script]]
  /\ read_script script
     = Some [Code "tell application "; Lit "LaunchBar"; Code " to perform service ";
             Lit "x"; Code " & y & "; Lit ""; Code " with string "; Lit "z"; Code ""]
  /\ escape_chars service <> service.
Proof.
  intros service script. repeat split.
  - run_action. now destruct (runProcess _ _).
  - discriminate.
Qed.

(** What [performService] does in general: [argv] is read back whole when
    the service name has neither a quote nor a backslash in it. *)
Lemma performService_escapes_argv
    (escapeNonString : value -> outcome value)
    (runProcess : string -> list string -> option string) (argv : string) :
  let script := performService_script (VStr "Make New Sticky Note")
                  (VStr (escape_chars argv)) in
  snd (performService escapeNonString runProcess
         (VStr "Make New Sticky Note") (VStr argv))
    = [Spawn "/usr/bin/osascript" ["-e"; script]]
  /\ read_script script
     = Some [Code "tell application "; Lit "LaunchBar"; Code " to perform service ";
             Lit "Make New Sticky Note"; Code " with string "; Lit argv; Code ""].
Proof.
  intros script. split.
  - run_action. now destruct (runProcess _ _).
  - subst script. read_template.
Qed.

(** ** Notifications *)

(** C5. Without an argument [displayNotification] calls no escaping and
    raises nothing of its own: it spawns the one command whose literals are
    the text [""], the title ["LaunchBar"], the subtitle [""], the callback
    URL [""] and the delay ["0"], and settles as that process does. *)
Theorem displayNotification_without_options
    (escapeNonString : value -> outcome value)
    (runProcess : string -> list string -> option string) :
  let script :=
    "tell application " +:+ quoted "LaunchBar" +:+ " to display in notification center "
      +:+ quoted "" +:+ continued
      +:+ "with title " +:+ quoted "LaunchBar" +:+ continued
      +:+ "subtitle " +:+ quoted "" +:+ continued
      +:+ "callback URL " +:+ quoted "" +:+ continued
      +:+ "after delay " +:+ quoted "0" in
  displayNotification escapeNonString runProcess None
    = (match runProcess "/usr/bin/osascript" ["-e"; script] with
       | Some _ => Resolved tt
       | None => Rejected ProcessError
       end,
       [Spawn "/usr/bin/osascript" ["-e"; script]])
  /\ fst (displayNotification escapeNonString runProcess None) <> Rejected TypeError
  /\ read_script script
     = Some [Code "tell application "; Lit "LaunchBar";
             Code " to display in notification center "; Lit "";
             Code (continued +:+ "with title "); Lit "LaunchBar";
             Code (continued +:+ "subtitle "); Lit "";
             Code (continued +:+ "callback URL "); Lit "";
             Code (continued +:+ "after delay "); Lit "0"; Code ""].
Proof.
  intros script.
  assert (E : displayNotification escapeNonString runProcess None
              = (match runProcess "/usr/bin/osascript" ["-e"; script] with
                 | Some _ => Resolved tt
                 | None => Rejected ProcessError
                 end,
                 [Spawn "/usr/bin/osascript" ["-e"; script]])).
  { run_action. fold script. now destruct (runProcess _ _). }
  repeat split.
  - exact E.
  - rewrite E. simpl. now destruct (runProcess _ _).
Qed.

(** C6. [displayNotification] escapes [text], [title] and [subtitle] but
    interpolates [callbackUrl] as it is: for the callback URL [u" & v & "] the
    literal closes after [u] and the rest of the URL is read as code. *)
Theorem displayNotification_embeds_callbackUrl_unescaped
    (escapeNonString : value -> outcome value)
    (runProcess : string -> list string -> option string) :
  let url := "u" +:+ quoted " & v & " in
  let options := {| text := VStr "t"; title := VStr "T"; subtitle := VStr "s";
                    callbackUrl := VStr url; afterDelay := VNum 1 |} in
  let script :=
    "tell application " +:+ quoted "LaunchBar" +:+ " to display in notification center "
      +:+ quoted "t" +:+ continued
      +:+ "with title " +:+ quoted "T" +:+ continued
      +:+ "subtitle " +:+ quoted "s" +:+ continued
      +:+ "callback URL " +:+ quoted url +:+ continued
      +:+ "after delay " +:+ quoted "1" in
  snd (displayNotification escapeNonString runProcess (Some options))
    = [Spawn "/usr/bin/osascript" ["-e"; script]]
  /\ read_script script
     = Some [Code "tell application "; Lit "LaunchBar";
             Code " to display in notification center "; Lit "t";
             Code (continued +:+ "with title "); Lit "T";
             Code (continued +:+ "subtitle "); Lit "s";
             Code (continued +:+ "callback URL "); Lit "u"; Code " & v & "; Lit "";
             Code (continued +:+ "after delay "); Lit "1"; Code ""]
  /\ escape_chars url <> url.
Proof.
  intros url options script. repeat split.
  - run_action. now destruct (runProcess _ _).
  - discriminate.
Qed.

(** The three escaped fields are read back whole, and a record whose fields
    are all absent gives the command of the call without an argument as
    soon as [escapeString] hands [undefined] back. *)
Lemma displayNotification_escapes_text_title_subtitle
    (x t s : string) :
  read_script (displayNotification_script (VStr (escape_chars x))
                 (VStr (escape_chars t)) (VStr (escape_chars s)) (VStr "") (VNum 0))
  = Some [Code "tell application "; Lit "LaunchBar";
          Code " to display in notification center "; Lit x;
          Code (continued +:+ "with title "); Lit t;
          Code (continued +:+ "subtitle "); Lit s;
          Code (continued +:+ "callback URL "); Lit "";
          Code (continued +:+ "after delay "); Lit "0"; Code ""].
Proof. read_template. Qed.

Lemma displayNotification_absent_fields
    (escapeNonString : value -> outcome value)
    (runProcess : string -> list string -> option string) :
  escapeNonString VUndefined = Resolved VUndefined ->
  displayNotification escapeNonString runProcess
    (Some {| text := VUndefined; title := VUndefined; subtitle := VUndefined;
             callbackUrl := VUndefined; afterDelay := VUndefined |})
  = displayNotification escapeNonString runProcess None.
Proof. intros H. run_action. rewrite H. reflexivity. Qed.

(** ** Trimming *)

Lemma trim_start_split (s : string) :
  exists l, s = l +:+ trim_start s /\ all_space l = true.
Proof.
  induction s as [|c s [l [E A]]]; simpl.
  - exists EmptyString. now split.
  - destruct (is_space c) eqn:Hc.
    + exists (String c l). simpl. rewrite Hc, A. split; [congruence | reflexivity].
    + exists EmptyString. now split.
Qed.

Lemma trim_start_head (s : string) (c : ascii) (r : string) :
  trim_start s = String c r -> is_space c = false.
Proof.
  induction s as [|a s IH]; simpl; [discriminate|].
  destruct (is_space a) eqn:Ha; [exact IH|].
  intros E. injection E as -> _. exact Ha.
Qed.

Lemma trim_end_split (s : string) :
  exists r, s = trim_end s +:+ r /\ all_space r = true.
Proof.
  induction s as [|c s [r [E A]]]; simpl.
  - exists EmptyString. now split.
  - destruct (is_space c) eqn:Hc; simpl.
    + destruct (String.eqb_spec (trim_end s) EmptyString) as [Z|Z].
      * exists (String c s). simpl. split; [reflexivity|].
        rewrite Hc. rewrite Z in E. simpl in E. now rewrite E.
      * exists r. simpl. split; [congruence | exact A].
    + exists r. simpl. split; [congruence | exact A].
Qed.

Lemma trim_end_last (s : string) (c : ascii) :
  last_char (trim_end s) = Some c -> is_space c = false.
Proof.
  induction s as [|a s IH]; simpl; [discriminate|].
  destruct (is_space a) eqn:Ha; simpl.
  - destruct (String.eqb_spec (trim_end s) EmptyString) as [Z|Z]; simpl; [discriminate|].
    destruct (trim_end s); [contradiction | exact IH].
  - destruct (trim_end s) eqn:T; simpl.
    + intros E. injection E as <-. exact Ha.
    + exact IH.
Qed.

(** [trim] takes whitespace off both ends and nothing else: what is left
    neither starts nor ends with whitespace. *)
Lemma trim_spec (s : string) :
  (exists l r, s = l +:+ trim s +:+ r /\ all_space l = true /\ all_space r = true)
  /\ (forall c t, trim s = String c t -> is_space c = false)
  /\ (forall c, last_char (trim s) = Some c -> is_space c = false).
Proof.
  unfold trim. split; [|split].
  - destruct (trim_start_split s) as [l [E A]].
    destruct (trim_end_split (trim_start s)) as [r [E' A']].
    exists l, r. split; [|now split]. now rewrite <- E', <- E.
  - intros c t. destruct (trim_start s) as [|a u] eqn:T; simpl; [discriminate|].
    pose proof (trim_start_head s a u T) as Ha. rewrite Ha. simpl.
    intros E. injection E as <- _. exact Ha.
  - apply trim_end_last.
Qed.

(** ** Keyboard focus *)

Lemma hasKeyboardFocus_result
    (runProcess : string -> list string -> option string) (out : string) :
  runProcess osascript ["-e"; hasKeyboardFocus_script] = Some out ->
  hasKeyboardFocus runProcess
  = (Resolved (String.eqb (trim out) "true"),
     [Spawn osascript ["-e"; hasKeyboardFocus_script]]).
Proof. intros H. run_action. rewrite H. reflexivity. Qed.

Lemma trim_start_spaces (l s : string) :
  all_space l = true -> trim_start (l +:+ s) = trim_start s.
Proof.
  induction l as [|c l IH]; simpl; [reflexivity|].
  intros H. apply andb_prop in H as [Hc Hl]. rewrite Hc. exact (IH Hl).
Qed.

Lemma trim_end_all_space (r : string) : all_space r = true -> trim_end r = EmptyString.
Proof.
  induction r as [|c r IH]; simpl; [reflexivity|].
  intros H. apply andb_prop in H as [Hc Hr]. now rewrite (IH Hr), Hc.
Qed.

Lemma trim_end_spaces (s r : string) :
  all_space r = true -> trim_end (s +:+ r) = trim_end s.
Proof.
  intros H. induction s as [|c s IH]; simpl.
  - now apply trim_end_all_space.
  - now rewrite IH.
Qed.

(** The trimmed output is [true] exactly when the output is [true] with
    whitespace, and nothing else, before and after it. *)
Lemma trim_is_true (out : string) :
  trim out = "true"
  <-> exists l r, out = l +:+ "true" +:+ r /\ all_space l = true /\ all_space r = true.
Proof.
  split.
  - intros E. destruct (trim_spec out) as [[l [r [D [Hl Hr]]]] _].
    exists l, r. rewrite E in D. now split.
  - intros [l [r [-> [Hl Hr]]]]. unfold trim.
    rewrite (trim_start_spaces l _ Hl).
    change (trim_start ("true" +:+ r)) with ("true" +:+ r).
    now rewrite (trim_end_spaces "true" r Hr).
Qed.

(** C3. Whatever the process printed, [hasKeyboardFocus()] resolves with
    [true] exactly when the output is the text [true] with nothing but
    whitespace before and after it, that is when the output trimmed is
    [true]; every other output, [false], the empty output and anything else,
    gives [false]. *)
Theorem hasKeyboardFocus_iff_output_is_true_in_whitespace
    (runProcess : string -> list string -> option string) (out : string) :
  runProcess "/usr/bin/osascript"
    ["-e"; "tell application " +:+ quoted "LaunchBar" +:+ " to return has keyboard focus"]
  = Some out ->
  (fst (hasKeyboardFocus runProcess) = Resolved true
   <-> exists l r,
         out = l +:+ "true" +:+ r /\ all_space l = true /\ all_space r = true)
  /\ (fst (hasKeyboardFocus runProcess) = Resolved false
      <-> ~ exists l r,
              out = l +:+ "true" +:+ r /\ all_space l = true /\ all_space r = true).
Proof.
  intros H. rewrite (hasKeyboardFocus_result runProcess out H). simpl.
  rewrite <- (trim_is_true out).
  destruct (String.eqb_spec (trim out) "true") as [E|E]; split; split;
    intros H'; try reflexivity; try congruence; try discriminate.
Qed.

Lemma hasKeyboardFocus_iff_output_is_true_in_whitespace_witness :
  (fun (_ : string) (_ : list string) => Some (" true" +:+ str1 newline))
    "/usr/bin/osascript"
    ["-e"; "tell application " +:+ quoted "LaunchBar" +:+ " to return has keyboard focus"]
  = Some (" true" +:+ str1 newline)
  /\ fst (hasKeyboardFocus (fun _ _ => Some (" true" +:+ str1 newline))) = Resolved true.
Proof.
  split; [reflexivity|].
  apply (proj2 (proj1 (hasKeyboardFocus_iff_output_is_true_in_whitespace
                         (fun _ _ => Some (" true" +:+ str1 newline))
                         (" true" +:+ str1 newline) eq_refl))).
  exists " ", (str1 newline). repeat split.
Defined.

Example hasKeyboardFocus_other_outputs :
  fst (hasKeyboardFocus (fun _ _ => Some "false")) = Resolved false
  /\ fst (hasKeyboardFocus (fun _ _ => Some "")) = Resolved false
  /\ fst (hasKeyboardFocus (fun _ _ => Some "true or so")) = Resolved false
  /\ fst (hasKeyboardFocus (fun _ _ => Some "TRUE")) = Resolved false.
Proof. repeat split. Qed.

(** ** The environment snapshot and the stores *)

Lemma flag_iff_one (penv : gmap string string) (name : string) :
  strict_eq_str (env_var penv name) "1" = true <-> penv !! name = Some "1".
Proof.
  unfold env_var. destruct (penv !! name) as [s|]; simpl.
  - rewrite String.eqb_eq. split; congruence.
  - split; discriminate.
Qed.

(** C7. Each boolean field of the snapshot is [true] exactly when its
    variable is set to the string [1]; any other value, and no value at all,
    gives [false]. *)
Theorem snapshot_flags_iff_variable_is_one (penv : gmap string string) :
  let e := (load penv).(env) in
  (e.(isDebugLogEnabled) = true <-> penv !! "LB_DEBUG_LOG_ENABLED" = Some "1")
  /\ (e.(commandKey) = true <-> penv !! "LB_OPTION_COMMAND_KEY" = Some "1")
  /\ (e.(alternateKey) = true <-> penv !! "LB_OPTION_ALTERNATE_KEY" = Some "1")
  /\ (e.(shiftKey) = true <-> penv !! "LB_OPTION_SHIFT_KEY" = Some "1")
  /\ (e.(controlKey) = true <-> penv !! "LB_OPTION_CONTROL_KEY" = Some "1")
  /\ (e.(spaceKey) = true <-> penv !! "LB_OPTION_SPACE_KEY" = Some "1")
  /\ (e.(actionRunsInBackground) = true
      <-> penv !! "LB_OPTION_RUN_IN_BACKGROUND" = Some "1")
  /\ (e.(isLiveFeedbackEnabled) = true <-> penv !! "LB_OPTION_LIVE_FEEDBACK" = Some "1").
Proof. cbv zeta. simpl. repeat split; apply flag_iff_one. Qed.

Example snapshot_flags_sample :
  let e := (load {[ "LB_OPTION_COMMAND_KEY" := "1"; "LB_OPTION_SHIFT_KEY" := "true";
                    "LB_OPTION_SPACE_KEY" := "0"; "LB_OPTION_CONTROL_KEY" := "11" ]}).(env) in
  (e.(commandKey), e.(shiftKey), e.(spaceKey), e.(controlKey), e.(alternateKey))
  = (true, false, false, false, false).
Proof. vm_compute. reflexivity. Qed.

(** C8. Loading the module builds the config store on the snapshot's support
    path and the cache store on its cache path. *)
Theorem stores_built_on_snapshot_paths (penv : gmap string string) :
  let lb := load penv in
  lb.(config) = Conf {| configName := VUndefined; cwd := lb.(env).(supportPath) |}
  /\ lb.(cache) = CacheConf {| configName := VStr "cache"; cwd := lb.(env).(cachePath) |}
  /\ lb.(env).(supportPath) = env_var penv "LB_SUPPORT_PATH"
  /\ lb.(env).(cachePath) = env_var penv "LB_CACHE_PATH".
Proof. repeat split. Qed.

(** ** Lines *)

Lemma split_newline_nonempty (s : string) : split_newline s <> [].
Proof.
  induction s as [|c s IH]; simpl; [discriminate|].
  destruct (Ascii.eqb c newline); [discriminate|].
  destruct (split_newline s); discriminate.
Qed.

(** Splitting cuts at the line feeds and nowhere else: the pieces joined by
    line feeds give the string back. *)
Lemma join_split_newline (s : string) : join (str1 newline) (split_newline s) = s.
Proof.
  induction s as [|c s IH]; simpl; [reflexivity|].
  pose proof (split_newline_nonempty s) as Hne.
  destruct (Ascii.eqb_spec c newline) as [->|Hc].
  - destruct (split_newline s) as [|h t]; [contradiction|].
    simpl in *. now rewrite IH.
  - destruct (split_newline s) as [|h t]; [contradiction|].
    destruct t as [|h' t]; simpl in *; now rewrite <- IH.
Qed.

Lemma has_char_cons (c d : ascii) (s : string) :
  has_char c (String d s) = Ascii.eqb c d || has_char c s.
Proof. reflexivity. Qed.

(** No piece holds a line feed. *)
Lemma split_newline_pieces (s : string) :
  Forall (fun piece => has_char newline piece = false) (split_newline s).
Proof.
  induction s as [|c s IH]; simpl.
  - repeat constructor.
  - destruct (Ascii.eqb_spec c newline) as [->|Hc].
    + constructor; [reflexivity | exact IH].
    + assert (Hn : Ascii.eqb newline c = false)
        by (apply Ascii.eqb_neq; congruence).
      destruct (split_newline s) as [|h t].
      * constructor; [|constructor].
        change (has_char newline (String c EmptyString) = false).
        rewrite has_char_cons, Hn. reflexivity.
      * inversion IH as [|? ? Hh Ht]; subst. constructor; [|exact Ht].
        change (has_char newline (String c h) = false).
        rewrite has_char_cons, Hn. exact Hh.
Qed.

Lemma allLines_map (a : text_arguments) (f : string -> string) :
  allLines a f = map f (concat (map split_newline (inputText a))).
Proof.
  unfold allLines. induction (inputText a) as [|x l IH]; simpl; [reflexivity|].
  rewrite IH. now rewrite map_app.
Qed.

(** C4. On [["a\nb", "c"]], upper-casing and the joiner [-], the lines are
    [A], [B], [C]; without the command key the call is the paste of [A-B-C],
    with it the call prints the array of the three titles.  In general the
    lines are the processing function mapped, in order, over the pieces of
    every input string cut at its line feeds, one input after the other. *)
Theorem textAction_lines_and_branches
    (escapeNonString : value -> outcome value)
    (runProcess : string -> list string -> option string) :
  let sample := TArr ["a" +:+ str1 newline +:+ "b"; "c"] in
  allLines sample upper = ["A"; "B"; "C"]
  /\ (forall lb : LaunchBar,
        textAction escapeNonString runProcess lb sample upper (Some "-")
        = if lb.(env).(commandKey)
          then (Resolved tt,
                [ConsoleLog ("[{" +:+ quoted "title" +:+ ":" +:+ quoted "A" +:+ "},{"
                               +:+ quoted "title" +:+ ":" +:+ quoted "B" +:+ "},{"
                               +:+ quoted "title" +:+ ":" +:+ quoted "C" +:+ "}]")])
          else paste escapeNonString runProcess (VStr "A-B-C"))
  /\ (forall (a : text_arguments) (f : string -> string),
        allLines a f = map f (concat (map split_newline (inputText a))))
  /\ (forall s : string,
        join (str1 newline) (split_newline s) = s
        /\ Forall (fun piece => has_char newline piece = false) (split_newline s)).
Proof.
  intros sample. split; [reflexivity|]. split; [|split].
  - intros lb. unfold textAction. now destruct (commandKey (env lb)).
  - apply allLines_map.
  - intros s. split; [apply join_split_newline | apply split_newline_pieces].
Qed.

(** C9. A single string is wrapped in a one-element array before anything
    else happens: the call on [s] is the call on [[s]]. *)
Theorem textAction_string_is_singleton_array
    (escapeNonString : value -> outcome value)
    (runProcess : string -> list string -> option string)
    (lb : LaunchBar) (s : string) (f : string -> string) (j : option string) :
  textAction escapeNonString runProcess lb (TStr s) f j
  = textAction escapeNonString runProcess lb (TArr [s]) f j
  /\ allLines (TStr s) f = map f (split_newline s).
Proof.
  split; [reflexivity|].
  unfold allLines; simpl. now rewrite app_nil_r.
Qed.

Lemma paste_spawns
    (escapeNonString : value -> outcome value)
    (runProcess : string -> list string -> option string) (s : string) :
  existsb is_spawn (snd (paste escapeNonString runProcess (VStr s))) = true.
Proof. run_action. now destruct (runProcess _ _). Qed.

(** C10. With the command key held, [textAction] does one thing: it prints
    one JSON array, the lines as [title] records.  It resolves, spawns no
    process, and so is not the paste, which always spawns one. *)
Theorem textAction_command_key_only_prints
    (escapeNonString : value -> outcome value)
    (runProcess : string -> list string -> option string)
    (lb : LaunchBar) (a : text_arguments) (f : string -> string) (j : option string) :
  lb.(env).(commandKey) = true ->
  textAction escapeNonString runProcess lb a f j
  = (Resolved tt,
     [ConsoleLog (stringify (JArr (map (fun x => JObj [("title", JStr x)])
                                       (allLines a f))))])
  /\ existsb is_spawn (snd (textAction escapeNonString runProcess lb a f j)) = false
  /\ (forall s : string,
        snd (textAction escapeNonString runProcess lb a f j)
        <> snd (paste escapeNonString runProcess (VStr s))).
Proof.
  intros H. unfold textAction. rewrite H. unfold console_log.
  split; [reflexivity|]. split; [reflexivity|].
  intros s E. pose proof (paste_spawns escapeNonString runProcess s) as P.
  rewrite <- E in P. discriminate.
Qed.

Lemma textAction_command_key_only_prints_witness :
  (load {[ "LB_OPTION_COMMAND_KEY" := "1" ]}).(env).(commandKey) = true
  /\ textAction (fun _ => Rejected TypeError) (fun _ _ => None)
       (load {[ "LB_OPTION_COMMAND_KEY" := "1" ]})
       (TStr ("x" +:+ str1 dquote)) upper None
     = (Resolved tt,
        [ConsoleLog ("[{" +:+ quoted "title" +:+ ":"
                       +:+ quoted ("X" +:+ str1 backslash +:+ str1 dquote) +:+ "}]")]).
Proof.
  split; [vm_compute; reflexivity|].
  refine (proj1 (textAction_command_key_only_prints
                   (fun _ => Rejected TypeError) (fun _ _ => None)
                   (load {[ "LB_OPTION_COMMAND_KEY" := "1" ]})
                   (TStr ("x" +:+ str1 dquote)) upper None _)).
  vm_compute; reflexivity.
Defined.


(** * Further properties of the facade *)

(** ** The effect monad *)

Lemma settle_resolved_bind {A B : Type} (a : A) (k : A -> action B) :
  (x ← settle (Resolved a); k x) = k a.
Proof.
  cbv [settle mbind action_bind]. destruct (k a) as [r t]. reflexivity.
Qed.

Lemma settle_rejected_bind {A B : Type} (e : error) (k : A -> action B) :
  (x ← settle (Rejected e); k x) = (Rejected e, []).
Proof. reflexivity. Qed.

Lemma execFile_then_unit
    (runProcess : string -> list string -> option string) (script : string) :
  (_ ← execFile runProcess osascript ["-e"; script]; mret tt)
  = (match runProcess osascript ["-e"; script] with
     | Some _ => Resolved tt
     | None => Rejected ProcessError
     end,
     [Spawn osascript ["-e"; script]]).
Proof.
  cbv [execFile mbind action_bind mret action_ret].
  now destruct (runProcess _ _).
Qed.

Lemma escaped_then_execFile
    (escapeNonString : value -> outcome value)
    (runProcess : string -> list string -> option string)
    (v : value) (script : value -> string) :
  (escaped ← settle (escapeString escapeNonString v);
   _ ← execFile runProcess osascript ["-e"; script escaped];
   mret tt)
  = match escapeString escapeNonString v with
    | Resolved escaped =>
        (match runProcess osascript ["-e"; script escaped] with
         | Some _ => Resolved tt
         | None => Rejected ProcessError
         end,
         [Spawn osascript ["-e"; script escaped]])
    | Rejected e => (Rejected e, [])
    end.
Proof.
  destruct (escapeString escapeNonString v) as [w|e].
  - rewrite settle_resolved_bind. apply execFile_then_unit.
  - reflexivity.
Qed.

Lemma displayNotification_with_options
    (escapeNonString : value -> outcome value)
    (runProcess : string -> list string -> option string)
    (o : notification_options) :
  displayNotification escapeNonString runProcess (Some o)
  = match escapeString escapeNonString o.(title) with
    | Rejected e => (Rejected e, [])
    | Resolved t =>
        match escapeString escapeNonString o.(text) with
        | Rejected e => (Rejected e, [])
        | Resolved x =>
            match escapeString escapeNonString o.(subtitle) with
            | Rejected e => (Rejected e, [])
            | Resolved s =>
                let script :=
                  displayNotification_script
                    (js_or x (VStr "")) (js_or t (VStr "LaunchBar")) (js_or s (VStr ""))
                    (js_or o.(callbackUrl) (VStr "")) (js_or o.(afterDelay) (VNum 0)) in
                (match runProcess osascript ["-e"; script] with
                 | Some _ => Resolved tt
                 | None => Rejected ProcessError
                 end,
                 [Spawn osascript ["-e"; script]])
            end
        end
    end.
Proof.
  unfold displayNotification.
  destruct (escapeString escapeNonString o.(title)) as [t|e]; [|reflexivity].
  destruct (escapeString escapeNonString o.(text)) as [x|e]; [|reflexivity].
  destruct (escapeString escapeNonString o.(subtitle)) as [s|e]; [|reflexivity].
  cbv [settle execFile mbind action_bind mret action_ret]. cbv zeta.
  now destruct (runProcess _ _).
Qed.

(** ** One process at most *)

(** X1. Every operation that talks to the interpreter leaves a trace of at
    most one event, the spawn of [/usr/bin/osascript] on one [-e] script; it
    prints nothing, spawns nothing else, does not try again after a failure,
    and cannot resolve without having spawned. *)
Theorem operations_spawn_osascript_once
    (escapeNonString : value -> outcome value)
    (runProcess : string -> list string -> option string)
    (txt service argv : value) (options : option notification_options) :
  well_traced (hide runProcess) = true
  /\ well_traced (remainActive runProcess) = true
  /\ well_traced (hasKeyboardFocus runProcess) = true
  /\ well_traced (setClipboardString escapeNonString runProcess txt) = true
  /\ well_traced (clearClipboard runProcess) = true
  /\ well_traced (paste escapeNonString runProcess txt) = true
  /\ well_traced (performService escapeNonString runProcess service argv) = true
  /\ well_traced (displayNotification escapeNonString runProcess options) = true.
Proof.
  repeat apply conj.
  - unfold hide. rewrite execFile_then_unit. now destruct (runProcess _ _).
  - unfold remainActive. rewrite execFile_then_unit. now destruct (runProcess _ _).
  - cbv [hasKeyboardFocus execFile mbind action_bind mret action_ret].
    now destruct (runProcess _ _).
  - unfold setClipboardString. rewrite escaped_then_execFile.
    destruct (escapeString _ _); [now destruct (runProcess _ _) | reflexivity].
  - unfold clearClipboard. rewrite execFile_then_unit. now destruct (runProcess _ _).
  - unfold paste. rewrite escaped_then_execFile.
    destruct (escapeString _ _); [now destruct (runProcess _ _) | reflexivity].
  - unfold performService.
    rewrite (escaped_then_execFile _ _ argv (performService_script service)).
    destruct (escapeString _ _); [now destruct (runProcess _ _) | reflexivity].
  - destruct options as [o|].
    + rewrite displayNotification_with_options.
      destruct (escapeString _ o.(title)); [|reflexivity].
      destruct (escapeString _ o.(text)); [|reflexivity].
      destruct (escapeString _ o.(subtitle)); [|reflexivity].
      cbv zeta. now destruct (runProcess _ _).
    + cbv [displayNotification execFile mbind action_bind mret action_ret].
      now destruct (runProcess _ _).
Qed.

(** ** Failures *)

(** X2. When the interpreter cannot be run, every operation rejects with
    the process error after its single attempt: nothing is caught, and
    [hasKeyboardFocus] rejects instead of answering [false]. *)
Theorem process_failure_rejects
    (escapeNonString : value -> outcome value)
    (runProcess : string -> list string -> option string)
    (s service : string) :
  (forall args, runProcess "/usr/bin/osascript" args = None) ->
  fst (hide runProcess) = Rejected ProcessError
  /\ fst (remainActive runProcess) = Rejected ProcessError
  /\ fst (hasKeyboardFocus runProcess) = Rejected ProcessError
  /\ fst (clearClipboard runProcess) = Rejected ProcessError
  /\ fst (setClipboardString escapeNonString runProcess (VStr s)) = Rejected ProcessError
  /\ fst (paste escapeNonString runProcess (VStr s)) = Rejected ProcessError
  /\ fst (performService escapeNonString runProcess (VStr service) (VStr s))
     = Rejected ProcessError
  /\ fst (displayNotification escapeNonString runProcess None) = Rejected ProcessError.
Proof.
  intros H. repeat apply conj.
  - unfold hide. rewrite execFile_then_unit. unfold osascript. now rewrite H.
  - unfold remainActive. rewrite execFile_then_unit. unfold osascript. now rewrite H.
  - cbv [hasKeyboardFocus execFile mbind action_bind mret action_ret osascript].
    now rewrite H.
  - unfold clearClipboard. rewrite execFile_then_unit. unfold osascript. now rewrite H.
  - unfold setClipboardString. rewrite escaped_then_execFile. simpl.
    unfold osascript. now rewrite H.
  - unfold paste. rewrite escaped_then_execFile. simpl. unfold osascript. now rewrite H.
  - unfold performService.
    rewrite (escaped_then_execFile _ _ (VStr s) (performService_script (VStr service))).
    simpl. unfold osascript. now rewrite H.
  - cbv [displayNotification execFile mbind action_bind mret action_ret osascript].
    now rewrite H.
Qed.

Lemma process_failure_rejects_witness :
  (forall args : list string,
     (fun (_ : string) (_ : list string) => @None string) "/usr/bin/osascript" args = None)
  /\ fst (hasKeyboardFocus (fun _ _ => None)) = Rejected ProcessError.
Proof.
  split; [reflexivity|].
  apply (process_failure_rejects (fun _ => Rejected TypeError) (fun _ _ => None)
           "a" "b" (fun _ => eq_refl)).
Defined.

(** X3. When [escapeString] throws on the text it is given, the operation
    rejects with that error before anything is spawned; in
    [displayNotification] the title is escaped first, so its error wins and
    the other fields are not looked at. *)
Theorem escaping_error_spawns_nothing
    (escapeNonString : value -> outcome value)
    (runProcess : string -> list string -> option string)
    (v service : value) (e : error) (o : notification_options) :
  escapeString escapeNonString v = Rejected e ->
  o.(title) = v ->
  setClipboardString escapeNonString runProcess v = (Rejected e, [])
  /\ paste escapeNonString runProcess v = (Rejected e, [])
  /\ performService escapeNonString runProcess service v = (Rejected e, [])
  /\ displayNotification escapeNonString runProcess (Some o) = (Rejected e, []).
Proof.
  intros H Ht. repeat apply conj.
  - unfold setClipboardString. rewrite escaped_then_execFile. now rewrite H.
  - unfold paste. rewrite escaped_then_execFile. now rewrite H.
  - unfold performService.
    rewrite (escaped_then_execFile _ _ v (performService_script service)).
    now rewrite H.
  - rewrite displayNotification_with_options. now rewrite Ht, H.
Qed.

Lemma escaping_error_spawns_nothing_witness :
  escapeString (fun _ => Rejected TypeError) (VNum 3) = Rejected TypeError
  /\ title {| text := VStr "t"; title := VNum 3; subtitle := VStr "s";
              callbackUrl := VUndefined; afterDelay := VUndefined |} = VNum 3
  /\ paste (fun _ => Rejected TypeError) (fun _ _ => Some "") (VNum 3)
     = (Rejected TypeError, []).
Proof.
  split; [reflexivity|]. split; [reflexivity|].
  apply (escaping_error_spawns_nothing (fun _ => Rejected TypeError) (fun _ _ => Some "")
           (VNum 3) (VStr "x") TypeError
           {| text := VStr "t"; title := VNum 3; subtitle := VStr "s";
              callbackUrl := VUndefined; afterDelay := VUndefined |}
           eq_refl eq_refl).
Defined.


(** ** Texts that stay inside their literal *)

Lemma lex_plain (s cur rest : string) :
  plain s = true -> lex InLit cur (s +:+ rest) = lex InLit (cur +:+ s) rest.
Proof.
  revert cur; induction s as [|c s IH]; intros cur; simpl.
  - intros _. now rewrite append_nil_r.
  - destruct (Ascii.eqb c dquote); [discriminate|].
    destruct (Ascii.eqb c backslash); [discriminate|]. simpl.
    intros H. rewrite (IH _ H). now rewrite append_snoc.
Qed.

Lemma reads_as_escaped (s : string) : reads_as (escape_chars s) s.
Proof. intros rest. apply lex_quoted_escaped. Qed.

Lemma reads_as_plain (s : string) : plain s = true -> reads_as s s.
Proof. intros H rest. now rewrite (lex_plain s _ _ H). Qed.

Lemma plain_uint (d : Decimal.uint) : plain (NilEmpty.string_of_uint d) = true.
Proof. induction d; simpl; auto. Qed.

(** A number printed in decimal has neither a quote nor a backslash. *)
Lemma plain_number (n : Z) : plain (to_string (VNum n)) = true.
Proof.
  unfold to_string, NilZero.string_of_int, NilZero.string_of_uint.
  destruct (Z.to_int n) as [d|d]; destruct d; simpl; rewrite ?plain_uint; reflexivity.
Qed.

Lemma escape_chars_empty (s : string) :
  String.eqb (escape_chars s) EmptyString = String.eqb s EmptyString.
Proof.
  destruct s as [|c s]; simpl; [reflexivity|].
  now destruct (Ascii.eqb c dquote || Ascii.eqb c backslash).
Qed.

Lemma read_performService_script (service escaped : value) (s a : string) :
  reads_as (to_string service) s ->
  reads_as (to_string escaped) a ->
  read_script (performService_script service escaped)
  = Some [Code "tell application "; Lit "LaunchBar"; Code " to perform service ";
          Lit s; Code " with string "; Lit a; Code ""].
Proof.
  intros Hs Ha. unfold performService_script.
  remember (to_string service) as es. remember (to_string escaped) as ea.
  cbv [read_script quoted str1]. simpl.
  rewrite ?append_assoc. simpl. rewrite Hs. simpl.
  rewrite Ha. reflexivity.
Qed.

Lemma read_displayNotification_script
    (v1 v2 v3 v4 v5 : value) (c1 c2 c3 c4 c5 : string) :
  reads_as (to_string v1) c1 ->
  reads_as (to_string v2) c2 ->
  reads_as (to_string v3) c3 ->
  reads_as (to_string v4) c4 ->
  reads_as (to_string v5) c5 ->
  read_script (displayNotification_script v1 v2 v3 v4 v5)
  = Some [Code "tell application "; Lit "LaunchBar";
          Code " to display in notification center "; Lit c1;
          Code (continued +:+ "with title "); Lit c2;
          Code (continued +:+ "subtitle "); Lit c3;
          Code (continued +:+ "callback URL "); Lit c4;
          Code (continued +:+ "after delay "); Lit c5; Code ""].
Proof.
  intros H1 H2 H3 H4 H5. unfold displayNotification_script.
  remember (to_string v1) as e1. remember (to_string v2) as e2.
  remember (to_string v3) as e3. remember (to_string v4) as e4.
  remember (to_string v5) as e5.
  cbv [read_script continued not_sign quoted str1]. simpl.
  rewrite ?append_assoc. simpl. rewrite H1. simpl.
  rewrite ?append_assoc. simpl. rewrite H2. simpl.
  rewrite ?append_assoc. simpl. rewrite H3. simpl.
  rewrite ?append_assoc. simpl. rewrite H4. simpl.
  rewrite ?append_assoc. simpl. rewrite H5. reflexivity.
Qed.

Lemma js_or_text (e : string) : js_or (VStr e) (VStr "") = VStr e.
Proof.
  unfold js_or, truthy. destruct (String.eqb_spec e ""); subst; reflexivity.
Qed.

Lemma js_or_title (t : string) :
  js_or (VStr (escape_chars t)) (VStr "LaunchBar")
  = VStr (if String.eqb t "" then "LaunchBar" else escape_chars t).
Proof.
  unfold js_or, truthy. rewrite escape_chars_empty. now destruct (String.eqb t "").
Qed.

Lemma js_or_delay (n : Z) : js_or (VNum n) (VNum 0) = VNum n.
Proof.
  unfold js_or, truthy. destruct (Z.eqb_spec n 0); subst; reflexivity.
Qed.

(** X4. For a service name without quote or backslash and any [argv],
    [performService] spawns one command that reads as the template with the
    service name and [argv] as its two literals: [argv] cannot leave its
    literal. *)
Theorem performService_reads_back
    (escapeNonString : value -> outcome value)
    (runProcess : string -> list string -> option string)
    (service argv : string) :
  plain service = true ->
  let script := "tell application " +:+ quoted "LaunchBar" +:+ " to perform service "
                  +:+ quoted service +:+ " with string " +:+ quoted (escape_chars argv) in
  snd (performService escapeNonString runProcess (VStr service) (VStr argv))
    = [Spawn "/usr/bin/osascript" ["-e"; script]]
  /\ read_script script
     = Some [Code "tell application "; Lit "LaunchBar"; Code " to perform service ";
             Lit service; Code " with string "; Lit argv; Code ""].
Proof.
  intros H script. split.
  - unfold performService.
    rewrite (escaped_then_execFile _ _ (VStr argv) (performService_script (VStr service))).
    reflexivity.
  - apply (read_performService_script (VStr service) (VStr (escape_chars argv))
             service argv).
    + now apply reads_as_plain.
    + apply reads_as_escaped.
Qed.

Lemma performService_reads_back_witness :
  plain "Make New Sticky Note" = true
  /\ read_script ("tell application " +:+ quoted "LaunchBar" +:+ " to perform service "
                    +:+ quoted "Make New Sticky Note" +:+ " with string "
                    +:+ quoted (escape_chars ("say " +:+ quoted "hi")))
     = Some [Code "tell application "; Lit "LaunchBar"; Code " to perform service ";
             Lit "Make New Sticky Note"; Code " with string ";
             Lit ("say " +:+ quoted "hi"); Code ""].
Proof.
  split; [reflexivity|].
  apply (proj2 (performService_reads_back (fun _ => Rejected TypeError) (fun _ _ => None)
                  "Make New Sticky Note" ("say " +:+ quoted "hi") eq_refl)).
Defined.

(** X5. When [argv] is left out and [escapeString] hands [undefined] back,
    the template prints it: the service is performed with the string
    [undefined], not with the empty string. *)
Theorem performService_without_argv
    (escapeNonString : value -> outcome value)
    (runProcess : string -> list string -> option string)
    (service : string) :
  plain service = true ->
  escapeNonString VUndefined = Resolved VUndefined ->
  let script := "tell application " +:+ quoted "LaunchBar" +:+ " to perform service "
                  +:+ quoted service +:+ " with string " +:+ quoted "undefined" in
  snd (performService escapeNonString runProcess (VStr service) VUndefined)
    = [Spawn "/usr/bin/osascript" ["-e"; script]]
  /\ read_script script
     = Some [Code "tell application "; Lit "LaunchBar"; Code " to perform service ";
             Lit service; Code " with string "; Lit "undefined"; Code ""].
Proof.
  intros H E script. split.
  - unfold performService.
    rewrite (escaped_then_execFile _ _ VUndefined (performService_script (VStr service))).
    simpl. rewrite E. reflexivity.
  - apply (read_performService_script (VStr service) VUndefined service "undefined").
    + now apply reads_as_plain.
    + now apply reads_as_plain.
Qed.

Lemma performService_without_argv_witness :
  plain "Lookup" = true
  /\ (fun v : value => Resolved v) VUndefined = Resolved VUndefined
  /\ snd (performService (fun v => Resolved v) (fun _ _ => Some "") (VStr "Lookup") VUndefined)
     = [Spawn "/usr/bin/osascript"
          ["-e"; "tell application " +:+ quoted "LaunchBar" +:+ " to perform service "
                   +:+ quoted "Lookup" +:+ " with string " +:+ quoted "undefined"]].
Proof.
  split; [reflexivity|]. split; [reflexivity|].
  apply (proj1 (performService_without_argv (fun v => Resolved v) (fun _ _ => Some "")
                  "Lookup" eq_refl eq_refl)).
Defined.

(** X6. For string fields, a callback URL without quote or backslash and a
    delay that is a safe integer, [displayNotification] spawns one command
    that reads as the template with the five values as its literals, the
    delay in decimal; [text], [title] and [subtitle] cannot leave their
    literals, and an empty title is replaced by [LaunchBar]. *)
Theorem displayNotification_reads_back
    (escapeNonString : value -> outcome value)
    (runProcess : string -> list string -> option string)
    (x t s url : string) (n : Z) :
  plain url = true ->
  safe_integer n = true ->
  let o := {| text := VStr x; title := VStr t; subtitle := VStr s;
              callbackUrl := VStr url; afterDelay := VNum n |} in
  let script :=
    displayNotification_script
      (VStr (escape_chars x))
      (VStr (if String.eqb t "" then "LaunchBar" else escape_chars t))
      (VStr (escape_chars s)) (VStr url) (VNum n) in
  snd (displayNotification escapeNonString runProcess (Some o))
    = [Spawn "/usr/bin/osascript" ["-e"; script]]
  /\ read_script script
     = Some [Code "tell application "; Lit "LaunchBar";
             Code " to display in notification center "; Lit x;
             Code (continued +:+ "with title ");
             Lit (if String.eqb t "" then "LaunchBar" else t);
             Code (continued +:+ "subtitle "); Lit s;
             Code (continued +:+ "callback URL "); Lit url;
             Code (continued +:+ "after delay "); Lit (to_string (VNum n)); Code ""].
Proof.
  intros H _ o script. split.
  - rewrite displayNotification_with_options. simpl.
    rewrite !js_or_text, js_or_title, js_or_delay. reflexivity.
  - subst script. apply read_displayNotification_script.
    + apply reads_as_escaped.
    + destruct (String.eqb t ""); [now apply reads_as_plain | apply reads_as_escaped].
    + apply reads_as_escaped.
    + now apply reads_as_plain.
    + apply reads_as_plain, plain_number.
Qed.

Lemma displayNotification_reads_back_witness :
  plain "https://example.com/a?b=1" = true
  /\ safe_integer 15 = true
  /\ snd (displayNotification (fun _ => Rejected TypeError) (fun _ _ => Some "")
            (Some {| text := VStr ("say " +:+ quoted "hi"); title := VStr "";
                     subtitle := VStr (str1 backslash);
                     callbackUrl := VStr "https://example.com/a?b=1";
                     afterDelay := VNum 15 |}))
     = [Spawn "/usr/bin/osascript"
          ["-e"; displayNotification_script
                   (VStr ("say " +:+ str1 backslash +:+ str1 dquote +:+ "hi"
                            +:+ str1 backslash +:+ str1 dquote))
                   (VStr "LaunchBar") (VStr (str1 backslash +:+ str1 backslash))
                   (VStr "https://example.com/a?b=1") (VNum 15)]]
  /\ to_string (VNum 15) = "15".
Proof.
  split; [reflexivity|]. split; [reflexivity|]. split; [|reflexivity].
  apply (proj1 (displayNotification_reads_back (fun _ => Rejected TypeError)
                  (fun _ _ => Some "") ("say " +:+ quoted "hi") "" (str1 backslash)
                  "https://example.com/a?b=1" 15 eq_refl eq_refl)).
Defined.

Lemma displayNotification_absent_fields_witness :
  (fun v : value => Resolved v) VUndefined = Resolved VUndefined
  /\ displayNotification (fun v => Resolved v) (fun _ _ => Some "")
       (Some {| text := VUndefined; title := VUndefined; subtitle := VUndefined;
                callbackUrl := VUndefined; afterDelay := VUndefined |})
     = displayNotification (fun v => Resolved v) (fun _ _ => Some "") None.
Proof.
  split; [reflexivity|].
  apply (displayNotification_absent_fields (fun v => Resolved v) (fun _ _ => Some "") eq_refl).
Defined.

(** ** Lines, joined and split *)

Lemma join_app (sep : string) (l1 l2 : list string) :
  l1 <> [] -> l2 <> [] ->
  join sep (l1 ++ l2)%list = join sep l1 +:+ sep +:+ join sep l2.
Proof.
  intros H1 H2. induction l1 as [|x l1 IH]; [contradiction|].
  destruct l1 as [|y t].
  - destruct l2 as [|z u]; [contradiction | reflexivity].
  - change (x +:+ sep +:+ join sep ((y :: t) ++ l2)%list
            = (x +:+ sep +:+ join sep (y :: t)) +:+ sep +:+ join sep l2).
    rewrite IH by discriminate. now rewrite !append_assoc.
Qed.

Lemma concat_split_nonempty (x : string) (l : list string) :
  concat (map split_newline (x :: l)) <> [].
Proof.
  simpl. pose proof (split_newline_nonempty x).
  destruct (split_newline x); [contradiction | discriminate].
Qed.

(** Cutting every input at its line feeds and joining all pieces by line
    feeds is joining the inputs by line feeds. *)
Lemma join_concat_split (l : list string) :
  join (str1 newline) (concat (map split_newline l)) = join (str1 newline) l.
Proof.
  induction l as [|x l IH]; [reflexivity|].
  destruct l as [|y t].
  - simpl. rewrite app_nil_r. apply join_split_newline.
  - change (concat (map split_newline (x :: y :: t)))
      with (split_newline x ++ concat (map split_newline (y :: t)))%list.
    rewrite join_app.
    + rewrite IH, join_split_newline. reflexivity.
    + apply split_newline_nonempty.
    + apply concat_split_nonempty.
Qed.

Lemma split_newline_length (s : string) :
  length (split_newline s) = S (count_newlines s).
Proof.
  induction s as [|c s IH]; simpl; [reflexivity|].
  destruct (Ascii.eqb c newline); simpl; [now rewrite IH|].
  pose proof (split_newline_nonempty s).
  destruct (split_newline s); [contradiction | exact IH].
Qed.

Lemma split_newline_line (x : string) :
  has_char newline x = false -> split_newline x = [x].
Proof.
  induction x as [|c x IH]; [reflexivity|].
  rewrite has_char_cons. intros H. apply orb_false_elim in H as [Hc Hx].
  simpl. rewrite Ascii.eqb_sym, Hc. now rewrite (IH Hx).
Qed.

Lemma split_newline_app (x r : string) :
  has_char newline x = false ->
  split_newline (x +:+ String newline r) = x :: split_newline r.
Proof.
  induction x as [|c x IH]; simpl.
  - intros _. reflexivity.
  - rewrite has_char_cons. intros H. apply orb_false_elim in H as [Hc Hx].
    rewrite Ascii.eqb_sym, Hc. now rewrite (IH Hx).
Qed.

Lemma split_join_newline (l : list string) :
  l <> [] ->
  Forall (fun piece => has_char newline piece = false) l ->
  split_newline (join (str1 newline) l) = l.
Proof.
  intros Hne H. induction H as [|x l Hx Hl IH]; [contradiction|].
  destruct l as [|y t].
  - simpl. now apply split_newline_line.
  - change (split_newline (x +:+ String newline (join (str1 newline) (y :: t)))
            = x :: y :: t).
    rewrite split_newline_app by exact Hx. now rewrite IH.
Qed.

(** ** The text action *)

(** X7. Without the command key and with the default joiner, a processing
    function that hands every line back makes [textAction] paste its input:
    the string itself, or the strings of the array joined by line feeds. *)
Theorem textAction_identity_pastes_input
    (escapeNonString : value -> outcome value)
    (runProcess : string -> list string -> option string)
    (lb : LaunchBar) (a : text_arguments) :
  lb.(env).(commandKey) = false ->
  textAction escapeNonString runProcess lb a (fun line => line) None
  = paste escapeNonString runProcess (VStr (join (str1 newline) (inputText a)))
  /\ (forall s : string, join (str1 newline) (inputText (TStr s)) = s).
Proof.
  intros H. split; [|reflexivity].
  unfold textAction. rewrite H, allLines_map, map_id. simpl.
  now rewrite join_concat_split.
Qed.

Lemma textAction_identity_pastes_input_witness :
  (load ∅).(env).(commandKey) = false
  /\ textAction (fun _ => Rejected TypeError) (fun _ _ => Some "") (load ∅)
       (TArr ["a" +:+ str1 newline +:+ "b"; ""; "c"]) (fun line => line) None
     = paste (fun _ => Rejected TypeError) (fun _ _ => Some "")
         (VStr ("a" +:+ str1 newline +:+ "b" +:+ str1 newline +:+ str1 newline +:+ "c")).
Proof.
  split; [reflexivity|].
  refine (proj1 (textAction_identity_pastes_input (fun _ => Rejected TypeError)
                   (fun _ _ => Some "") (load ∅)
                   (TArr ["a" +:+ str1 newline +:+ "b"; ""; "c"]) _)).
  reflexivity.
Defined.

(** X8. Without the command key [textAction] prints nothing and spawns one
    paste command, which reads as the template with the joined lines as its
    literal: whatever the processing function returns stays inside the
    pasted text. *)
Theorem textAction_pastes_joined_lines
    (escapeNonString : value -> outcome value)
    (runProcess : string -> list string -> option string)
    (lb : LaunchBar) (a : text_arguments) (f : string -> string) (j : option string) :
  lb.(env).(commandKey) = false ->
  let pasted := join (default_joiner j) (allLines a f) in
  let script := "tell application " +:+ quoted "LaunchBar"
                  +:+ " to paste in frontmost application "
                  +:+ quoted (escape_chars pasted) in
  snd (textAction escapeNonString runProcess lb a f j)
    = [Spawn "/usr/bin/osascript" ["-e"; script]]
  /\ read_script script
     = Some [Code "tell application "; Lit "LaunchBar";
             Code " to paste in frontmost application "; Lit pasted; Code ""].
Proof.
  intros H pasted script. split.
  - unfold textAction. rewrite H. unfold paste.
    rewrite escaped_then_execFile. reflexivity.
  - apply read_paste_script.
Qed.

Lemma textAction_pastes_joined_lines_witness :
  (load ∅).(env).(commandKey) = false
  /\ snd (textAction (fun _ => Rejected TypeError) (fun _ _ => Some "") (load ∅)
            (TStr ("a" +:+ str1 newline +:+ "b")) quoted (Some ", "))
     = [Spawn "/usr/bin/osascript"
          ["-e"; "tell application " +:+ quoted "LaunchBar"
                   +:+ " to paste in frontmost application "
                   +:+ quoted (escape_chars (quoted "a" +:+ ", " +:+ quoted "b"))]].
Proof.
  split; [reflexivity|].
  refine (proj1 (textAction_pastes_joined_lines (fun _ => Rejected TypeError)
                   (fun _ _ => Some "") (load ∅) (TStr ("a" +:+ str1 newline +:+ "b"))
                   quoted (Some ", ") _)).
  reflexivity.
Defined.

Lemma Forall_concat_split (l : list string) :
  Forall (fun piece => has_char newline piece = false) (concat (map split_newline l)).
Proof.
  induction l as [|x l IH]; simpl; [constructor|].
  apply Forall_app. split; [apply split_newline_pieces | exact IH].
Qed.

(** X9. The processing function is only ever called on texts without a line
    feed: two functions that agree on those give the same lines. *)
Theorem allLines_calls_on_single_lines
    (a : text_arguments) (f g : string -> string) :
  (forall line : string, has_char newline line = false -> f line = g line) ->
  allLines a f = allLines a g.
Proof.
  intros H. rewrite !allLines_map.
  pose proof (Forall_concat_split (inputText a)) as F.
  induction F as [|x l Hx _ IH]; simpl; [reflexivity|].
  now rewrite (H x Hx), IH.
Qed.

Lemma allLines_calls_on_single_lines_witness :
  (forall line : string,
     has_char newline line = false
     -> upper line = (fun l => if has_char newline l then "" else upper l) line)
  /\ allLines (TStr ("a" +:+ str1 newline +:+ "b")) upper
     = allLines (TStr ("a" +:+ str1 newline +:+ "b"))
         (fun l => if has_char newline l then "" else upper l).
Proof.
  assert (H : forall line : string,
            has_char newline line = false
            -> upper line = (fun l => if has_char newline l then "" else upper l) line).
  { intros line E. cbv beta. now rewrite E. }
  split; [exact H|].
  apply (allLines_calls_on_single_lines (TStr ("a" +:+ str1 newline +:+ "b")) upper
           (fun l => if has_char newline l then "" else upper l) H).
Defined.

(** X10. The number of lines is, summed over the input strings, one more
    than the line feeds of the string: a string always gives at least one
    line, the empty string one empty line, an empty array none. *)
Theorem allLines_length (a : text_arguments) (f : string -> string) :
  length (allLines a f)
  = sum_list (map (fun s => S (count_newlines s)) (inputText a)).
Proof.
  rewrite allLines_map, length_map.
  induction (inputText a) as [|x l IH]; simpl; [reflexivity|].
  now rewrite length_app, split_newline_length, IH.
Qed.

(** X11. Lines without line feeds, joined by line feeds into one string,
    are processed one by one as if they had been passed as an array. *)
Theorem allLines_of_joined_lines (l : list string) (f : string -> string) :
  l <> [] ->
  Forall (fun piece => has_char newline piece = false) l ->
  allLines (TStr (join (str1 newline) l)) f = map f l
  /\ allLines (TStr (join (str1 newline) l)) f = allLines (TArr l) f.
Proof.
  intros Hne H.
  assert (E : allLines (TStr (join (str1 newline) l)) f = map f l).
  { rewrite allLines_map. simpl. rewrite app_nil_r. now rewrite split_join_newline. }
  split; [exact E|]. rewrite E, allLines_map. simpl. f_equal.
  clear E Hne. induction H as [|x l Hx _ IH]; simpl; [reflexivity|].
  now rewrite (split_newline_line x Hx), <- IH.
Qed.

Lemma allLines_of_joined_lines_witness :
  ["a"; ""; "b c"] <> []
  /\ Forall (fun piece => has_char newline piece = false) ["a"; ""; "b c"]
  /\ allLines (TStr (join (str1 newline) ["a"; ""; "b c"])) upper = ["A"; ""; "B C"].
Proof.
  assert (F : Forall (fun piece => has_char newline piece = false) ["a"; ""; "b c"])
    by (repeat constructor).
  split; [discriminate|]. split; [exact F|].
  refine (proj1 (allLines_of_joined_lines ["a"; ""; "b c"] upper _ F)).
  discriminate.
Defined.

(** ** What the snapshot reads *)

(** X12. The snapshot reads the thirteen [LB_] variables and nothing else:
    a change or removal of any other variable leaves every field of
    [LaunchBar.env] as it was. *)
Theorem snapshot_reads_only_its_variables
    (penv : gmap string string) (k v : string) :
  (k ∉ snapshot_variables) ->
  snapshot (<[k := v]> penv) = snapshot penv
  /\ snapshot (delete k penv) = snapshot penv.
Proof.
  intros H. unfold snapshot_variables in H.
  repeat (apply not_elem_of_cons in H as [? H]).
  unfold snapshot, env_var. split.
  - rewrite !lookup_insert_ne by done. reflexivity.
  - rewrite !lookup_delete_ne by done. reflexivity.
Qed.

Lemma snapshot_reads_only_its_variables_witness :
  ("PATH" ∉ snapshot_variables)
  /\ snapshot (<["PATH" := "/usr/bin"]> {[ "LB_OPTION_SHIFT_KEY" := "1" ]})
     = snapshot {[ "LB_OPTION_SHIFT_KEY" := "1" ]}.
Proof.
  assert (H : "PATH" ∉ snapshot_variables).
  { unfold snapshot_variables.
    repeat (apply not_elem_of_cons; split; [discriminate|]).
    apply not_elem_of_nil. }
  split; [exact H|].
  apply (proj1 (snapshot_reads_only_its_variables {[ "LB_OPTION_SHIFT_KEY" := "1" ]}
                  "PATH" "/usr/bin" H)).
Defined.

(** X13. Which branch [textAction] takes hangs on the command-key variable
    alone: setting any other variable, another modifier key included, gives
    the same call. *)
Theorem textAction_mode_needs_command_key_variable
    (escapeNonString : value -> outcome value)
    (runProcess : string -> list string -> option string)
    (penv : gmap string string) (k v : string)
    (a : text_arguments) (f : string -> string) (j : option string) :
  k <> "LB_OPTION_COMMAND_KEY" ->
  textAction escapeNonString runProcess (load (<[k := v]> penv)) a f j
  = textAction escapeNonString runProcess (load penv) a f j.
Proof.
  intros H. unfold textAction. simpl. unfold env_var.
  rewrite lookup_insert_ne by done. reflexivity.
Qed.

Lemma textAction_mode_needs_command_key_variable_witness :
  "LB_OPTION_ALTERNATE_KEY" <> "LB_OPTION_COMMAND_KEY"
  /\ textAction (fun _ => Rejected TypeError) (fun _ _ => Some "")
       (load (<["LB_OPTION_ALTERNATE_KEY" := "1"]> ∅)) (TStr "a") upper None
     = textAction (fun _ => Rejected TypeError) (fun _ _ => Some "")
         (load ∅) (TStr "a") upper None.
Proof.
  assert (H : "LB_OPTION_ALTERNATE_KEY" <> "LB_OPTION_COMMAND_KEY") by discriminate.
  split; [exact H|].
  apply (textAction_mode_needs_command_key_variable (fun _ => Rejected TypeError)
           (fun _ _ => Some "") ∅ "LB_OPTION_ALTERNATE_KEY" "1" (TStr "a") upper None H).
Defined.

(** ** What is printed *)

Lemma from_space_up_app (a b : string) :
  from_space_up (a +:+ b) = from_space_up a && from_space_up b.
Proof.
  induction a as [|c a IH]; simpl; [reflexivity|].
  now rewrite IH, andb_assoc.
Qed.

Lemma from_space_up_json_escape_char (c : ascii) : from_space_up (json_escape_char c) = true.
Proof. destruct c as [[] [] [] [] [] [] [] []]; reflexivity. Qed.

Lemma from_space_up_json_escape (s : string) : from_space_up (json_escape s) = true.
Proof.
  induction s as [|c s IH]; simpl; [reflexivity|].
  now rewrite from_space_up_app, from_space_up_json_escape_char, IH.
Qed.

Lemma from_space_up_json_quote (s : string) : from_space_up (json_quote s) = true.
Proof.
  unfold json_quote, quoted. rewrite !from_space_up_app, from_space_up_json_escape.
  reflexivity.
Qed.

Lemma from_space_up_join (sep : string) (l : list string) :
  from_space_up sep = true ->
  Forall (fun x => from_space_up x = true) l ->
  from_space_up (join sep l) = true.
Proof.
  intros Hs H. induction H as [|x l Hx Hl IH]; [reflexivity|].
  destruct l as [|y t]; [exact Hx|].
  change (from_space_up (x +:+ sep +:+ join sep (y :: t)) = true).
  now rewrite !from_space_up_app, Hx, Hs, IH.
Qed.

Lemma from_space_up_stringify (data : json) : from_space_up (stringify data) = true.
Proof.
  revert data. fix IH 1. intros [s|items|fields]; simpl.
  - apply from_space_up_json_quote.
  - rewrite !from_space_up_app. simpl. rewrite andb_true_r.
    apply from_space_up_join; [reflexivity|].
    induction items as [|x items IHl]; constructor; [apply IH | exact IHl].
  - rewrite !from_space_up_app. simpl. rewrite andb_true_r.
    apply from_space_up_join; [reflexivity|].
    induction fields as [|[k x] fields IHl]; constructor; [|exact IHl].
    change (from_space_up (json_quote k +:+ ":" +:+ stringify x) = true).
    rewrite !from_space_up_app, from_space_up_json_quote. simpl. apply IH.
Qed.

Lemma from_space_up_lacks (c : ascii) (s : string) :
  (nat_of_ascii c < 32)%nat -> from_space_up s = true -> has_char c s = false.
Proof.
  intros Hc. induction s as [|d s IH]; [reflexivity|].
  change (from_space_up (String d s))
    with ((32 <=? nat_of_ascii d)%nat && from_space_up s).
  rewrite has_char_cons. intros H. apply andb_prop in H as [Hd Hs].
  rewrite (IH Hs), orb_false_r. apply Ascii.eqb_neq. intros <-.
  apply Nat.leb_le in Hd. lia.
Qed.

(** X14. What [output] and the preview of [textAction] print is one
    [console.log] of a text whose bytes are all [0x20] or above, whatever the
    strings of the data hold: the printed JSON has no line feed, carriage
    return or tab of its own.  (The delete character and non-ASCII text are
    printed as they are.) *)
Theorem printed_json_bytes_from_space_up
    (escapeNonString : value -> outcome value)
    (runProcess : string -> list string -> option string)
    (lb : LaunchBar) (data : json)
    (a : text_arguments) (f : string -> string) (j : option string) :
  lb.(env).(commandKey) = true ->
  (exists printed,
     output data = (Resolved tt, [ConsoleLog printed])
     /\ from_space_up printed = true
     /\ has_char newline printed = false
     /\ has_char carriage_return printed = false
     /\ has_char tab printed = false)
  /\ (exists printed,
        textAction escapeNonString runProcess lb a f j
        = (Resolved tt, [ConsoleLog printed])
        /\ from_space_up printed = true
        /\ has_char newline printed = false
        /\ has_char carriage_return printed = false
        /\ has_char tab printed = false).
Proof.
  intros Hk.
  assert (N : forall s, from_space_up s = true ->
              from_space_up s = true
              /\ has_char newline s = false
              /\ has_char carriage_return s = false
              /\ has_char tab s = false).
  { intros s H. repeat split; [exact H| | |];
      apply from_space_up_lacks; try exact H; vm_compute; lia. }
  split.
  - eexists. split; [reflexivity|]. apply N, from_space_up_stringify.
  - unfold textAction. rewrite Hk. eexists. split; [reflexivity|].
    apply N, from_space_up_stringify.
Qed.

Lemma printed_json_bytes_from_space_up_witness :
  (load {[ "LB_OPTION_COMMAND_KEY" := "1" ]}).(env).(commandKey) = true
  /\ exists printed,
       output (JArr [JObj [("title", JStr ("a" +:+ str1 newline +:+ "b"))]])
       = (Resolved tt, [ConsoleLog printed])
       /\ from_space_up printed = true
       /\ has_char newline printed = false
       /\ has_char carriage_return printed = false
       /\ has_char tab printed = false.
Proof.
  split; [reflexivity|].
  refine (proj1 (printed_json_bytes_from_space_up (fun _ => Rejected TypeError)
                   (fun _ _ => None) (load {[ "LB_OPTION_COMMAND_KEY" := "1" ]})
                   (JArr [JObj [("title", JStr ("a" +:+ str1 newline +:+ "b"))]])
                   (TStr "") upper None _)).
  reflexivity.
Defined.

(** ** Successes and blank records *)

(** X15. When the interpreter runs, the operations that return nothing
    resolve whatever it printed: its output is looked at by
    [hasKeyboardFocus] alone. *)
Theorem process_success_resolves
    (escapeNonString : value -> outcome value)
    (runProcess : string -> list string -> option string)
    (s service : string) :
  (forall args, runProcess "/usr/bin/osascript" args <> None) ->
  fst (hide runProcess) = Resolved tt
  /\ fst (remainActive runProcess) = Resolved tt
  /\ fst (clearClipboard runProcess) = Resolved tt
  /\ fst (setClipboardString escapeNonString runProcess (VStr s)) = Resolved tt
  /\ fst (paste escapeNonString runProcess (VStr s)) = Resolved tt
  /\ fst (performService escapeNonString runProcess (VStr service) (VStr s)) = Resolved tt
  /\ fst (displayNotification escapeNonString runProcess None) = Resolved tt
  /\ (exists b, fst (hasKeyboardFocus runProcess) = Resolved b).
Proof.
  intros H.
  assert (R : forall script,
            match runProcess osascript ["-e"; script] with
            | Some _ => Resolved tt
            | None => Rejected ProcessError
            end = Resolved tt).
  { intros script. pose proof (H ["-e"; script]) as Hs. unfold osascript.
    now destruct (runProcess _ _). }
  repeat apply conj.
  - unfold hide. rewrite execFile_then_unit. apply R.
  - unfold remainActive. rewrite execFile_then_unit. apply R.
  - unfold clearClipboard. rewrite execFile_then_unit. apply R.
  - unfold setClipboardString. rewrite escaped_then_execFile. apply R.
  - unfold paste. rewrite escaped_then_execFile. apply R.
  - unfold performService.
    rewrite (escaped_then_execFile _ _ (VStr s) (performService_script (VStr service))).
    apply R.
  - cbv [displayNotification execFile mbind action_bind mret action_ret osascript].
    pose proof (H ["-e"; displayNotification_script (VStr "") (VStr "LaunchBar")
                           (VStr "") (VStr "") (VNum 0)]) as Hs.
    now destruct (runProcess _ _).
  - cbv [hasKeyboardFocus execFile mbind action_bind mret action_ret osascript].
    pose proof (H ["-e"; hasKeyboardFocus_script]) as Hs.
    destruct (runProcess _ _); [eexists; reflexivity | contradiction].
Qed.

Lemma process_success_resolves_witness :
  (forall args : list string,
     (fun (_ : string) (_ : list string) => Some "anything") "/usr/bin/osascript" args
     <> None)
  /\ fst (hide (fun _ _ => Some "anything")) = Resolved tt.
Proof.
  split; [discriminate|].
  refine (proj1 (process_success_resolves (fun _ => Rejected TypeError)
                   (fun _ _ => Some "anything") "a" "b" _)).
  discriminate.
Defined.

(** X16. A record whose fields are all absent or falsy gives the call
    without an argument, as soon as [escapeString] hands [undefined] back:
    an empty text, title or subtitle, any falsy callback URL and any falsy
    delay fall back to the defaults. *)
Theorem displayNotification_blank_record
    (escapeNonString : value -> outcome value)
    (runProcess : string -> list string -> option string)
    (o : notification_options) :
  escapeNonString VUndefined = Resolved VUndefined ->
  Forall (fun field => field = VUndefined \/ field = VStr "")
         [o.(text); o.(title); o.(subtitle)] ->
  truthy o.(callbackUrl) = false ->
  truthy o.(afterDelay) = false ->
  displayNotification escapeNonString runProcess (Some o)
  = displayNotification escapeNonString runProcess None.
Proof.
  intros E F Hu Hd.
  apply Forall_cons in F as [Hx F]. apply Forall_cons in F as [Ht F].
  apply Forall_cons in F as [Hs _].
  rewrite displayNotification_with_options.
  assert (B : forall field d,
            field = VUndefined \/ field = VStr "" ->
            exists w, escapeString escapeNonString field = Resolved w /\ js_or w d = d).
  { intros field d [-> | ->]; simpl.
    - rewrite E. now exists VUndefined.
    - now exists (VStr ""). }
  destruct (B _ (VStr "LaunchBar") Ht) as [t [-> Jt]].
  destruct (B _ (VStr "") Hx) as [x [-> Jx]].
  destruct (B _ (VStr "") Hs) as [s [-> Js]].
  assert (J : forall v d, truthy v = false -> js_or v d = d)
    by (intros v d Hv; unfold js_or; now rewrite Hv).
  cbv zeta. rewrite Jt, Jx, Js, (J _ _ Hu), (J _ _ Hd).
  cbv [displayNotification execFile mbind action_bind mret action_ret].
  now destruct (runProcess _ _).
Qed.

Lemma displayNotification_blank_record_witness :
  (fun v : value => Resolved v) VUndefined = Resolved VUndefined
  /\ displayNotification (fun v => Resolved v) (fun _ _ => Some "")
       (Some {| text := VStr ""; title := VUndefined; subtitle := VStr "";
                callbackUrl := VNull; afterDelay := VBool false |})
     = displayNotification (fun v => Resolved v) (fun _ _ => Some "") None.
Proof.
  split; [reflexivity|].
  refine (displayNotification_blank_record (fun v => Resolved v) (fun _ _ => Some "")
            {| text := VStr ""; title := VUndefined; subtitle := VStr "";
               callbackUrl := VNull; afterDelay := VBool false |} eq_refl _ eq_refl eq_refl).
  repeat (constructor; [(left; reflexivity) || (right; reflexivity)|]).
  constructor.
Defined.
